(** * LCRProvider: the SIP telephony provider of api/services/telephony/providers/lcr_provider.py

    A shallow embedding of [LCRProvider] and the properties its
    specification states about it.

    The provider is a Python object with mutable attributes, talking to
    three outside parties: the pyVoIP SIP engine ([VoIPPhone], its
    [start] and [call]), the loguru logger, and a FastAPI websocket.
    The embedding keeps
    - Python values as the inductive [pyval], with Python's truth
      value testing and the value-returning [and];
    - the provider's attributes as the record [LCRProvider];
    - every effect as an explicit state: the provider object, the heap
      of [VoIPPhone] objects created so far, and the ordered trace of
      log lines and socket operations;
    - exceptions as the [Raise] outcome of a state-and-exception monad;
    - the outside parties as the record [Env] of oracles, each a
      function of the state at the moment of the call. *)

From Stdlib Require Import ZArith String List Bool Lia PrimFloat.
From stdpp Require Import base option list gmap strings.

Local Open Scope string_scope.
Local Open Scope Z_scope.

#[local] Set Warnings "-register-all".

(** ** Python values *)

(** The values a [Dict[str, Any]] configuration can hold and the
    provider can return: [None], [bool], [int], [float], [str] and
    [list]. *)
Inductive pyval : Type :=
| VNone
| VBool (b : bool)
| VInt (z : Z)
| VFloat (f : float)
| VStr (s : string)
| VList (l : list pyval).

(** Python's truth value testing ([bool(v)], [if v], [not v]). *)
Definition truthy (v : pyval) : bool :=
  match v with
  | VNone => false
  | VBool b => b
  | VInt z => negb (z =? 0)
  | VFloat f => negb (PrimFloat.eqb f 0%float)
  | VStr s => negb (String.eqb s "")
  | VList l => match l with [] => false | _ :: _ => true end
  end.

(** [a and b] returns an operand, not a boolean: [a] when [a] is
    falsy, [b] otherwise. *)
Definition py_and (a b : pyval) : pyval := if truthy a then b else a.

(** [isinstance(v, str)]. *)
Definition isinstance_str (v : pyval) : bool :=
  match v with VStr _ => true | _ => false end.

(** ** Exceptions *)

(** Exceptions by class. [ValueError], [TypeError],
    [NotImplementedError] and [AttributeError] are the builtins the
    provider raises or can meet. [StopIteration] and the two classes
    of [concurrent.futures] are the ones the executor bridge does not
    hand over as they are; [AsyncioCancelledError] and
    [AsyncioInvalidStateError] are what it hands over in their place.
    [LibraryError] is any other subclass of [Exception] coming out of
    pyVoIP, the socket layer or the web framework; [NonException] is
    any other [BaseException] that is not an [Exception]
    (KeyboardInterrupt, SystemExit). [asyncio.CancelledError] is not an
    [Exception] either. *)
Inductive exn : Type :=
| ValueError (msg : string)
| TypeError (msg : string)
| NotImplementedError
| AttributeError (msg : string)
| StopIteration (msg : string)
| FuturesCancelledError (msg : string)
| FuturesInvalidStateError (msg : string)
| AsyncioCancelledError (msg : string)
| AsyncioInvalidStateError (msg : string)
| LibraryError (cls msg : string)
| NonException (cls msg : string).

(** [isinstance(e, Exception)]: what [except Exception as e] catches. *)
Definition is_Exception (e : exn) : bool :=
  match e with
  | NonException _ _ | AsyncioCancelledError _ => false
  | _ => true
  end.

(** What the awaiting coroutine receives when the function it handed
    to [loop.run_in_executor] raised [e] on the worker (CPython 3.11).
    The worker stores [e] in its [concurrent.futures] future; the loop
    copies it to the asyncio future through [_convert_future_exc] and
    [set_exception]. A [concurrent.futures.CancelledError] or
    [InvalidStateError] is replaced by the asyncio class of the same
    name with the same arguments; a [StopIteration] is refused by
    [set_exception], the asyncio future is never completed, and
    nothing is received ([None]); every other exception, whether an
    [Exception] or not, is received as it is. *)
Definition deliver (e : exn) : option exn :=
  match e with
  | StopIteration _ => None
  | FuturesCancelledError msg => Some (AsyncioCancelledError msg)
  | FuturesInvalidStateError msg => Some (AsyncioInvalidStateError msg)
  | _ => Some e
  end.

(** How a call ends: it returns, it raises, or, for a coroutine, it
    stays suspended at an [await] that is never resumed. *)
Inductive outcome (A : Type) : Type :=
| Return (a : A)
| Raise (e : exn)
| Pending.
Arguments Return {A} a.
Arguments Raise {A} e.
Arguments Pending {A}.

(** ** The provider object, the heap of SIP clients, and the trace *)

(** [self]: the attributes [__init__] sets. [sip_client] holds the
    identity of a [VoIPPhone] object (its index in the heap [phones]),
    or [None]. *)
Record LCRProvider : Type := mkLCRProvider {
  host : pyval;
  port : Z;
  password : pyval;
  username : pyval;
  from_numbers : pyval;
  sip_client : option nat
}.

(** A [VoIPPhone] object: the constructor's arguments and whether its
    thread was started. *)
Record VoIPPhone : Type := mkVoIPPhone {
  ph_server : pyval;
  ph_port : Z;
  ph_username : pyval;
  ph_password : pyval;
  ph_myIP : string;
  ph_started : bool
}.

(** The call object [phone.call(number)] returns, as far as the
    provider looks at it: what [str(call.callID)] gives, a string or
    the exception of the attribute access or of the conversion. *)
Record VoIPCall : Type := mkVoIPCall {
  str_callID : exn + string
}.

Inductive level : Type := INFO | SUCCESS | WARNING | ERROR.

(** The log lines of the module, with the values their f-strings
    interpolate kept unformatted. *)
Inductive log_msg : Type :=
| Msg_initializing_sip_client (user hst : pyval)
| Msg_sip_client_started
| Msg_sip_dial_error (e : exn)
| Msg_initiating_call (to_number : string) (user : pyval)
| Msg_failed_to_initiate (e : exn)
| Msg_no_websocket_bridging.

(** What the provider does to the outside, in order. The websocket
    operations are those of the ASGI socket: the provider's code only
    ever performs [accept]; the others are what a peer could observe
    as an answer. *)
Inductive event : Type :=
| Log (lvl : level) (m : log_msg)
| SipNew (id : nat)
| SipStart (id : nat)
| SipCall (id : nat) (to_number : string)
| WsAccept (ws : nat)
| WsSend (ws : nat) (data : string)
| WsClose (ws : nat) (code : Z).

Record state : Type := mkState {
  self : LCRProvider;
  phones : list VoIPPhone;
  trace : list event
}.

(** The outside world. Each oracle sees the state at the moment of the
    call, so an answer may depend on everything that happened before.
    [None] / [inr] is normal completion, [Some e] / [inl e] is the
    exception raised.
    - [builtin_int]: [int(v)] on a value that is not already an [int];
    - [voip_new]: the [VoIPPhone(...)] constructor (binds a socket);
    - [voip_start]: [phone.start()];
    - [voip_call]: [phone.call(number)], the call object it returns;
    - [ws_accept]: [await websocket.accept()]. *)
Record Env : Type := mkEnv {
  builtin_int : pyval -> exn + Z;
  voip_new : state -> pyval -> Z -> pyval -> pyval -> option exn;
  voip_start : state -> nat -> option exn;
  voip_call : state -> nat -> string -> exn + VoIPCall;
  ws_accept : state -> nat -> option exn
}.

(** ** The state-and-exception monad *)

Definition M (A : Type) : Type := state -> outcome A * state.

Definition ret {A} (a : A) : M A := fun st => (Return a, st).
Definition raise {A} (e : exn) : M A := fun st => (Raise e, st).
Definition bind {A B} (m : M A) (k : A -> M B) : M B :=
  fun st => match m st with
            | (Return a, st') => k a st'
            | (Raise e, st') => (Raise e, st')
            | (Pending, st') => (Pending, st')
            end.

Declare Scope py_scope.
Delimit Scope py_scope with py.
Notation "'let*' x ':=' m 'in' k" := (bind m (fun x => k))
  (at level 10, x name, m at level 100, k at level 200) : py_scope.
Notation "m '>>' k" := (bind m (fun _ => k))
  (at level 100, k at level 200, right associativity) : py_scope.
Local Open Scope py_scope.

(** [try: body except Exception as e: handler(e); raise]. The bare
    [raise] re-raises [e] itself; a [BaseException] outside [Exception]
    passes through untouched. Should the handler raise, its exception
    replaces [e]. *)
Definition try_except_reraise {A} (body : M A) (handler : exn -> M unit) : M A :=
  fun st => match body st with
            | (Return a, st') => (Return a, st')
            | (Raise e, st') =>
                if is_Exception e then
                  match handler e st' with
                  | (Return _, st'') => (Raise e, st'')
                  | (Raise e', st'') => (Raise e', st'')
                  | (Pending, st'') => (Pending, st'')
                  end
                else (Raise e, st')
            | (Pending, st') => (Pending, st')
            end.

Definition get_self : M LCRProvider := fun st => (Return (self st), st).
Definition emit (ev : event) : M unit :=
  fun st => (Return tt, mkState (self st) (phones st) (trace st ++ [ev])).
Definition logger (lvl : level) (m : log_msg) : M unit := emit (Log lvl m).

(** [self.sip_client = ph]. *)
Definition set_sip_client (ph : nat) : M unit :=
  fun st =>
    let p := self st in
    (Return tt,
     mkState (mkLCRProvider (host p) (port p) (password p) (username p)
                            (from_numbers p) (Some ph))
             (phones st) (trace st)).

(** ** The canonical data model *)

(** Modelled from the spec: [CallInitiationResult] is declared in
    api/services/telephony/base.py, which is not among the sources; the
    specification gives it as a record of a call id, a status, a
    provider tag and a metadata mapping from strings to values. *)
Record CallInitiationResult : Type := mkCallInitiationResult {
  call_id : string;
  status : string;
  provider : string;
  metadata : gmap string pyval
}.

(** Modelled from the spec: [NormalizedInboundData] is declared in the
    same absent module; the specification lists a caller number, a
    called number, the provider's call identifier and the raw payload. *)
Record NormalizedInboundData : Type := mkNormalizedInboundData {
  from_number : string;
  to_number_in : string;
  provider_call_id : string;
  raw_data : gmap string pyval
}.

(** ** The methods of [LCRProvider] *)

Section Provider.

Variable env : Env.

(** [int(v)]: the identity on an [int], 1 and 0 on [True] and [False],
    the interpreter's conversion (which may raise) on anything else. *)
Definition py_int (v : pyval) : exn + Z :=
  match v with
  | VInt z => inr z
  | VBool b => inr (if b then 1 else 0)
  | _ => builtin_int env v
  end.

(** [config.get(key, default)] and [config.get(key)]. *)
Definition dict_get_default (config : gmap string pyval) (key : string) (d : pyval) : pyval :=
  default d (config !! key).
Definition dict_get (config : gmap string pyval) (key : string) : pyval :=
  dict_get_default config key VNone.

(** [LCRProvider.__init__(config)]. The only step that can raise is
    [int(...)] on the port. *)
Definition __init__ (config : gmap string pyval) : exn + LCRProvider :=
  let host_ := dict_get_default config "host" (VStr "trunksip11.lcrcom.es") in
  match py_int (dict_get_default config "port" (VInt 5060)) with
  | inl e => inl e
  | inr port_ =>
      let password_ := dict_get config "auth_token" in
      let username_ := dict_get config "api_key" in
      let from_numbers_ := dict_get_default config "from_numbers" (VList []) in
      let from_numbers_ :=
        if isinstance_str from_numbers_ then VList [from_numbers_] else from_numbers_ in
      inr (mkLCRProvider host_ port_ password_ username_ from_numbers_ None)
  end.

(** [validate_config]: [bool(self.host and self.password and self.username)]. *)
Definition validate_config : M bool :=
  let* p := get_self in
  ret (truthy (py_and (py_and (host p) (password p)) (username p))).

(** [VoIPPhone(host, port, username, password, myIP="0.0.0.0", callCallback=...)]:
    on success a new object is allocated at the end of the heap and its
    identity returned. *)
Definition VoIPPhone_new (h : pyval) (pt : Z) (u pw : pyval) : M nat :=
  fun st =>
    match voip_new env st h pt u pw with
    | Some e => (Raise e, st)
    | None =>
        let id := List.length (phones st) in
        (Return id,
         mkState (self st)
                 (phones st ++ [mkVoIPPhone h pt u pw "0.0.0.0" false])
                 (trace st ++ [SipNew id]))
    end.

Definition mark_started (ph : VoIPPhone) : VoIPPhone :=
  mkVoIPPhone (ph_server ph) (ph_port ph) (ph_username ph) (ph_password ph) (ph_myIP ph) true.

(** [obj.start()] where [obj] is what [self.sip_client] evaluates to. *)
Definition VoIPPhone_start (obj : option nat) : M unit :=
  fun st =>
    match obj with
    | None => (Raise (AttributeError "'NoneType' object has no attribute 'start'"), st)
    | Some id =>
        match voip_start env st id with
        | Some e => (Raise e, st)
        | None =>
            (Return tt,
             mkState (self st) (alter mark_started id (phones st)) (trace st ++ [SipStart id]))
        end
    end.

(** [obj.call(to_number)]: once it has returned, the call has been
    placed. *)
Definition VoIPPhone_call (obj : option nat) (to_number : string) : M VoIPCall :=
  fun st =>
    match obj with
    | None => (Raise (AttributeError "'NoneType' object has no attribute 'call'"), st)
    | Some id =>
        match voip_call env st id to_number with
        | inl e => (Raise e, st)
        | inr call =>
            (Return call, mkState (self st) (phones st) (trace st ++ [SipCall id to_number]))
        end
    end.

(** [str(call.callID)]. *)
Definition read_callID (call : VoIPCall) : M string :=
  fun st =>
    match str_callID call with
    | inl e => (Raise e, st)
    | inr cid => (Return cid, st)
    end.

(** Truth value of what [self.sip_client] holds: [None] is falsy, a
    [VoIPPhone] object (which defines neither [__bool__] nor [__len__])
    is truthy. *)
Definition truthy_obj (obj : option nat) : bool :=
  match obj with Some _ => true | None => false end.

(** Evaluating the attribute [self.sip_client]. *)
Definition read_sip_client : M (option nat) :=
  let* p := get_self in ret (sip_client p).

(** [_get_sip_client]: lazy initialisation of the SIP client. *)
Definition _get_sip_client : M (option nat) :=
  let* cur := read_sip_client in
  (if negb (truthy_obj cur) then
     let* ok := validate_config in
     if negb ok then raise (ValueError "LCR SIP credentials missing")
     else
       let* p := get_self in
       logger INFO (Msg_initializing_sip_client (username p) (host p)) >>
       let* ph := VoIPPhone_new (host p) (port p) (username p) (password p) in
       set_sip_client ph >>
       let* obj := read_sip_client in
       VoIPPhone_start obj >>
       logger SUCCESS Msg_sip_client_started
   else ret tt) >>
  read_sip_client.

(** [_do_sip_call]: the blocking dial. The session is obtained outside
    the [try]. *)
Definition _do_sip_call (to_number : string) : M string :=
  let* phone := _get_sip_client in
  try_except_reraise
    (let* call := VoIPPhone_call phone to_number in
     read_callID call)
    (fun e => logger ERROR (Msg_sip_dial_error e)).

(** [await loop.run_in_executor(self._executor, f, arg)]: [f(arg)] runs
    on a worker. The caller resumes with the value it returned, or
    with the exception it raised as [deliver] hands it over; when that
    exception cannot be handed over the caller is never resumed. *)
Definition run_in_executor {A B} (f : A -> M B) (arg : A) : M B :=
  fun st =>
    match f arg st with
    | (Return b, st') => (Return b, st')
    | (Raise e, st') =>
        match deliver e with
        | Some e' => (Raise e', st')
        | None => (Pending, st')
        end
    | (Pending, st') => (Pending, st')
    end.

(** [initiate_call]. [webhook_url] and [workflow_run_id] are accepted
    and not used. *)
Definition initiate_call (to_number webhook_url : string) (workflow_run_id : option Z)
  : M CallInitiationResult :=
  let* p := get_self in
  logger INFO (Msg_initiating_call to_number (username p)) >>
  try_except_reraise
    (let* cid := run_in_executor _do_sip_call to_number in
     let* p' := get_self in
     ret (mkCallInitiationResult cid "ringing" "lcr" {[ "sip_host" := host p' ]}))
    (fun e => logger ERROR (Msg_failed_to_initiate e)).

(** [get_call_status]. *)
Definition get_call_status (cid : string) : M (gmap string pyval) :=
  ret (<[ "call_id" := VStr cid ]> {[ "status" := VStr "in-progress" ]}).

(** [get_available_phone_numbers]. *)
Definition get_available_phone_numbers : M pyval :=
  let* p := get_self in ret (from_numbers p).

(** [get_call_cost]. *)
Definition get_call_cost (cid : string) : M (gmap string pyval) :=
  ret {[ "cost_usd" := VFloat 0%float ]}.

(** [await websocket.accept()]. *)
Definition websocket_accept (ws : nat) : M unit :=
  fun st =>
    match ws_accept env st ws with
    | Some e => (Raise e, st)
    | None => (Return tt, mkState (self st) (phones st) (trace st ++ [WsAccept ws]))
    end.

(** [handle_websocket]: accept, then a warning in the log. *)
Definition handle_websocket (websocket : nat) (workflow_id user_id workflow_run_id : Z) : M unit :=
  websocket_accept websocket >>
  logger WARNING Msg_no_websocket_bridging.

(** [can_handle_webhook] (a classmethod) and [parse_inbound_webhook]
    (a staticmethod): neither sees the provider object. *)
Definition can_handle_webhook (webhook_data : gmap string pyval) (headers : gmap string string) : bool :=
  false.

Definition parse_inbound_webhook (webhook_data : gmap string pyval) : exn + NormalizedInboundData :=
  inl NotImplementedError.

End Provider.

(** ** Worker threads inside [_get_sip_client]

    [initiate_call] hands [_do_sip_call] to a pool of five worker
    threads, so several workers can be inside [_get_sip_client] on the
    same provider object. A worker is a program counter over the body
    of [_get_sip_client]; one step performs at most one access to
    [self] or one call to the outside. The interpreter may switch
    threads between any two bytecodes, so every interleaving of these
    steps is an execution of the code. *)

Inductive pc : Type :=
| AtCheck                   (* if not self.sip_client: *)
| AtValidate                (* if not self.validate_config(): raise ValueError(...) *)
| AtLogInit                 (* logger.info(...) *)
| AtConstruct               (* VoIPPhone(...) *)
| AtAssign (ph : nat)       (* self.sip_client = <the new object> *)
| AtStart                   (* self.sip_client.start() *)
| AtLogStarted              (* logger.success(...) *)
| AtReturn                  (* return self.sip_client *)
| Done (r : outcome (option nat)).

Section Threads.

Variable env : Env.

(** Running a monadic action as one step of a worker. *)
Definition advance {A} (m : M A) (next : A -> pc) (st : state) : pc * state :=
  match m st with
  | (Return a, st') => (next a, st')
  | (Raise e, st') => (Done (Raise e), st')
  | (Pending, st') => (Done Pending, st')
  end.

Definition step (c : pc) (st : state) : pc * state :=
  match c with
  | AtCheck =>
      advance read_sip_client
              (fun cur => if negb (truthy_obj cur) then AtValidate else AtReturn) st
  | AtValidate =>
      advance (let* ok := validate_config in
               if negb ok then raise (ValueError "LCR SIP credentials missing") else ret tt)
              (fun _ => AtLogInit) st
  | AtLogInit =>
      advance (let* p := get_self in
               logger INFO (Msg_initializing_sip_client (username p) (host p)))
              (fun _ => AtConstruct) st
  | AtConstruct =>
      advance (let* p := get_self in
               VoIPPhone_new env (host p) (port p) (username p) (password p))
              AtAssign st
  | AtAssign ph => advance (set_sip_client ph) (fun _ => AtStart) st
  | AtStart =>
      advance (let* obj := read_sip_client in VoIPPhone_start env obj)
              (fun _ => AtLogStarted) st
  | AtLogStarted => advance (logger SUCCESS Msg_sip_client_started) (fun _ => AtReturn) st
  | AtReturn => advance read_sip_client (fun r => Done (Return r)) st
  | Done r => (Done r, st)
  end.

(** One worker running with nobody else, for [n] steps. *)
Fixpoint run_alone (n : nat) (c : pc) (st : state) : pc * state :=
  match n with
  | O => (c, st)
  | S n' => let '(c', st') := step c st in run_alone n' c' st'
  end.

(** The pool: the workers' program counters and the shared state. A
    schedule names, step by step, the worker that runs next. *)
Definition sched_step (cfg : list pc * state) (i : nat) : list pc * state :=
  match fst cfg !! i with
  | Some c => let '(c', st') := step c (snd cfg) in (<[i := c']> (fst cfg), st')
  | None => cfg
  end.

Definition run_schedule (sched : list nat) (cfg : list pc * state) : list pc * state :=
  foldl sched_step cfg sched.

Definition is_done (c : pc) : bool :=
  match c with Done _ => true | _ => false end.

(** [n] calls of [_get_sip_client] one after the other, each returning
    (or raising into its caller) before the next begins. *)
Fixpoint sequential_calls (n : nat) (st : state) : list (outcome (option nat)) * state :=
  match n with
  | O => ([], st)
  | S n' =>
      let '(r, st') := _get_sip_client env st in
      let '(rs, st'') := sequential_calls n' st' in
      (r :: rs, st'')
  end.

End Threads.

(** ** Concrete environments and inputs *)

(** The state right after [LCRProvider(config)]: no phone, no event. *)
Definition fresh (p : LCRProvider) : state := mkState p [] [].

(** A reachable SIP trunk: every outside call completes. The
    configurations below give no port, so [int] only ever sees the
    default 5060 and the interpreter's conversion is never consulted;
    it is set to refuse. *)
Definition env_reachable : Env :=
  mkEnv (fun _ => inl (TypeError "int() argument"))
        (fun _ _ _ _ _ => None)
        (fun _ _ => None)
        (fun st _ _ => inr (mkVoIPCall (inr "call-1")))
        (fun _ _ => None).




(** A trunk whose [start] always raises. *)
Definition env_start_fails : Env :=
  mkEnv (builtin_int env_reachable) (voip_new env_reachable)
        (fun _ _ => Some (LibraryError "OSError" "Address already in use"))
        (voip_call env_reachable) (ws_accept env_reachable).

(** A trunk whose constructor raises while at most one event has been
    written, and succeeds afterwards. *)
Definition env_busy_once : Env :=
  mkEnv (builtin_int env_reachable)
        (fun st _ _ _ _ =>
           if Nat.leb (List.length (trace st)) 1
           then Some (LibraryError "OSError" "Address already in use") else None)
        (voip_start env_reachable) (voip_call env_reachable) (ws_accept env_reachable).

Definition config_hup : gmap string pyval :=
  <[ "host" := VStr "h" ]> (<[ "api_key" := VStr "u" ]> {[ "auth_token" := VStr "p" ]}).

Definition config_scenario : gmap string pyval :=
  <[ "from_numbers" := VStr "+15551230000" ]> config_hup.

Definition config_no_host : gmap string pyval :=
  <[ "api_key" := VStr "u" ]> {[ "auth_token" := VStr "p" ]}.

Definition config_no_password : gmap string pyval :=
  <[ "host" := VStr "h" ]> {[ "api_key" := VStr "u" ]}.

Definition provider_hup : LCRProvider :=
  mkLCRProvider (VStr "h") 5060 (VStr "p") (VStr "u") (VList []) None.

Definition provider_scenario : LCRProvider :=
  mkLCRProvider (VStr "h") 5060 (VStr "p") (VStr "u") (VList [VStr "+15551230000"]) None.

(** ** The specification's vocabulary *)

(** A value is empty when it is absent ([None]), has length zero, or
    is a zero or false scalar. For the text values credentials are,
    this is [None] or the empty string. *)
Definition empty_value (v : pyval) : Prop :=
  match v with
  | VNone => True
  | VStr s => String.length s = 0%nat
  | VList l => List.length l = 0%nat
  | VBool b => b = false
  | VInt z => z = 0
  | VFloat f => PrimFloat.eqb f 0%float = true
  end.

(** A configuration key is missing or empty. *)
Definition missing_or_empty (config : gmap string pyval) (key : string) : Prop :=
  match config !! key with
  | None => True
  | Some v => empty_value v
  end.

(** A configuration key is present with an empty value. *)
Definition present_and_empty (config : gmap string pyval) (key : string) : Prop :=
  match config !! key with
  | None => False
  | Some v => empty_value v
  end.

(** The error kinds of the specification, as the exceptions of the
    code: [ConfigInvalid] is the [ValueError] of [_get_sip_client],
    [NotSupported] is [NotImplementedError]. *)
Definition ConfigInvalid : exn := ValueError "LCR SIP credentials missing".
Definition NotSupported : exn := NotImplementedError.

(** The state in which the worker starts: the first log line of
    [initiate_call] has been written. *)
Definition worker_start (to_number : string) (st : state) : state :=
  snd (logger INFO (Msg_initiating_call to_number (username (self st))) st).



(** An event by which the peer of socket [ws] hears from the server
    after the handshake: a message or a close frame. *)
Definition peer_signal (ws : nat) (ev : event) : bool :=
  match ev with
  | WsSend w _ => Nat.eqb w ws
  | WsClose w _ => Nat.eqb w ws
  | _ => false
  end.

(** The events a run added to the trace. *)
Definition new_events (before after : state) : list event :=
  drop (List.length (trace before)) (trace after).

(** Complete credentials: [validate_config] answers [True]. *)
Definition valid_identity (p : LCRProvider) : Prop :=
  fst (validate_config (fresh p)) = Return true.

(** The constructor [VoIPPhone(...)] never raises. *)
Definition constructor_succeeds (env : Env) : Prop :=
  forall s h pt u pw, voip_new env s h pt u pw = None.

(** Fail-fast as the specification words it: whenever the host, the
    username or the password is missing from the configuration or
    empty in it, obtaining the session raises [ConfigInvalid] and
    leaves the provider, the heap and the trace untouched. *)
Definition rejects_missing_or_empty : Prop :=
  forall (env : Env) (config : gmap string pyval) (p : LCRProvider)
         (phs : list VoIPPhone) (tr : list event),
    __init__ env config = inr p ->
    missing_or_empty config "host" \/ missing_or_empty config "api_key" \/
    missing_or_empty config "auth_token" ->
    _get_sip_client env (mkState p phs tr) = (Raise ConfigInvalid, mkState p phs tr).

(** Single creation as the specification words it: however [N]
    workers entering [_get_sip_client] on a fresh, valid provider are
    interleaved, once all are done exactly one [VoIPPhone] exists. *)
Definition one_session_under_concurrent_first_use : Prop :=
  forall (env : Env) (config : gmap string pyval) (p : LCRProvider)
         (N : nat) (sched : list nat),
    __init__ env config = inr p ->
    valid_identity p ->
    constructor_succeeds env ->
    (1 <= N)%nat ->
    forallb is_done (fst (run_schedule env sched (replicate N AtCheck, fresh p))) = true ->
    List.length (phones (snd (run_schedule env sched (replicate N AtCheck, fresh p)))) = 1%nat.

(** Non-support as the specification words it: on every socket whose
    handshake succeeds, the handler accepts and the peer then gets a
    message or a close frame. *)
Definition peer_is_told_of_non_support : Prop :=
  forall (env : Env) (ws : nat) (workflow_id user_id workflow_run_id : Z) (st : state),
    ws_accept env st ws = None ->
    In (WsAccept ws)
       (new_events st (snd (handle_websocket env ws workflow_id user_id workflow_run_id st))) /\
    existsb (peer_signal ws)
       (new_events st (snd (handle_websocket env ws workflow_id user_id workflow_run_id st)))
    = true.

(** The interleaving of two workers in which both test
    [self.sip_client] before either has assigned it. *)
Definition racing_schedule : list nat :=
  [0; 1; 0; 0; 0; 0; 0; 0; 0; 1; 1; 1; 1; 1; 1; 1]%nat.

(** ** Vocabulary for the life of a provider *)

(** The test [validate_config] makes, as a function of the attributes. *)
Definition credentials_complete (p : LCRProvider) : bool :=
  truthy (py_and (py_and (host p) (password p)) (username p)).

(** The provider after [self.sip_client = <phone id>]. *)
Definition with_session (p : LCRProvider) (id : nat) : LCRProvider :=
  mkLCRProvider (host p) (port p) (password p) (username p) (from_numbers p) (Some id).

(** The [VoIPPhone] the provider constructs: server, port, username
    and password in that order, listening on all interfaces. *)
Definition new_phone (p : LCRProvider) : VoIPPhone :=
  mkVoIPPhone (host p) (port p) (username p) (password p) "0.0.0.0" false.

Definition log_init (p : LCRProvider) : event :=
  Log INFO (Msg_initializing_sip_client (username p) (host p)).

(** The states [_get_sip_client] goes through when it creates the
    session: the first log line written; the phone constructed and
    assigned; the phone started and the second log line written. *)
Definition st_announced (st : state) : state :=
  mkState (self st) (phones st) (trace st ++ [log_init (self st)]).

Definition st_assigned (st : state) : state :=
  mkState (with_session (self st) (List.length (phones st)))
          (phones st ++ [new_phone (self st)])
          (trace st ++ [log_init (self st); SipNew (List.length (phones st))]).

Definition st_started (st : state) : state :=
  mkState (with_session (self st) (List.length (phones st)))
          (phones st ++ [mark_started (new_phone (self st))])
          (trace st ++ [log_init (self st); SipNew (List.length (phones st));
                        SipStart (List.length (phones st));
                        Log SUCCESS Msg_sip_client_started]).

(** The configuration attributes of two provider values agree. *)
Definition same_config (p p' : LCRProvider) : Prop :=
  host p' = host p /\ port p' = port p /\ password p' = password p /\
  username p' = username p /\ from_numbers p' = from_numbers p.

(** Events of the SIP engine. *)
Definition is_sip_event (ev : event) : bool :=
  match ev with
  | SipNew _ | SipStart _ | SipCall _ _ => true
  | _ => false
  end.

(** The calls an orchestrator makes on a provider object. An
    exception raised by a call is the caller's to handle; the provider
    object lives on in the state the call left. *)
Inductive call : Type :=
| Call_initiate_call (to_number webhook_url : string) (workflow_run_id : option Z)
| Call_get_sip_client
| Call_validate_config
| Call_get_call_status (cid : string)
| Call_get_available_phone_numbers
| Call_get_call_cost (cid : string)
| Call_handle_websocket (websocket : nat) (workflow_id user_id workflow_run_id : Z).

Definition run_call (env : Env) (st : state) (c : call) : state :=
  match c with
  | Call_initiate_call to_number webhook_url wf =>
      snd (initiate_call env to_number webhook_url wf st)
  | Call_get_sip_client => snd (_get_sip_client env st)
  | Call_validate_config => snd (validate_config st)
  | Call_get_call_status cid => snd (get_call_status cid st)
  | Call_get_available_phone_numbers => snd (get_available_phone_numbers st)
  | Call_get_call_cost cid => snd (get_call_cost cid st)
  | Call_handle_websocket ws a b c => snd (handle_websocket env ws a b c st)
  end.

Definition run_calls (env : Env) (cs : list call) (st : state) : state :=
  foldl (run_call env) st cs.

(** The state with more events written to the trace. *)
Definition add_events (st : state) (evs : list event) : state :=
  mkState (self st) (phones st) (trace st ++ evs).

(** The log lines a raised exception leaves behind in a handler
    [except Exception as e]: the line when [e] is an [Exception],
    nothing otherwise. *)
Definition logged_if_caught (e : exn) (m : log_msg) : list event :=
  if is_Exception e then [Log ERROR m] else [].

(** How [initiate_call] ends when the worker raised [e] and left the
    state [st2]: the exception is handed over by the bridge and the
    handler of [initiate_call] logs it if it is an [Exception]; when
    it cannot be handed over the call stays suspended. *)
Definition call_fails {A} (e : exn) (st2 : state) : outcome A * state :=
  match deliver e with
  | Some e' => (Raise e', add_events st2 (logged_if_caught e' (Msg_failed_to_initiate e')))
  | None => (Pending, st2)
  end.


(** What holds of a provider built as [p] over its whole life: its
    configuration stays that of [p], and either it holds no session,
    no phone exists and the SIP engine was never touched, or it holds
    the one phone there is, built from its own host, port, username
    and password, and its credentials are complete. *)
Definition lifecycle_ok (p : LCRProvider) (st : state) : Prop :=
  same_config p (self st) /\
  ((sip_client (self st) = None /\ phones st = [] /\
    forallb (fun ev => negb (is_sip_event ev)) (trace st) = true) \/
   (sip_client (self st) = Some 0%nat /\ credentials_complete p = true /\
    (phones st = [new_phone p] \/ phones st = [mark_started (new_phone p)]))).

(** How many phones a worker may still construct: one until it has
    passed the constructor, none after. *)
Definition pending (c : pc) : nat :=
  match c with
  | AtCheck | AtValidate | AtLogInit | AtConstruct => 1
  | _ => 0
  end.

Definition pool_pending (ts : list pc) : nat := sum_list (pending <$> ts).

(** The same for worker [i] of a pool; nothing for an index outside it. *)
Definition pending_at (ts : list pc) (i : nat) : nat :=
  match ts !! i with
  | Some c => pending c
  | None => 0
  end.

(** How many times worker [i] calls the [VoIPPhone] constructor in the
    run of a schedule: the steps it takes from [AtConstruct], whether
    the constructor then returns or raises. *)
Fixpoint constructor_calls (env : Env) (sched : list nat) (cfg : list pc * state) (i : nat)
  : nat :=
  match sched with
  | [] => 0
  | j :: rest =>
      ((if Nat.eqb j i
        then match fst cfg !! j with Some AtConstruct => 1 | _ => 0 end
        else 0)
       + constructor_calls env rest (sched_step env cfg j) i)%nat
  end.

(** Where a worker can be when the credentials are incomplete: at the
    test, at the validation, or finished with the credentials error. *)
Definition on_rejection_path (c : pc) : Prop :=
  c = AtCheck \/ c = AtValidate \/ c = Done (Raise ConfigInvalid).

(** A short life of a provider, for the examples. *)
Definition calls_example : list call :=
  [Call_initiate_call "+15557654321" "" None; Call_get_sip_client;
   Call_handle_websocket 7 1 2 3; Call_initiate_call "+15550001111" "" None].

(** * Properties *)

(** ** Truth value testing against emptiness *)

Lemma truthy_false_iff_empty (v : pyval) : truthy v = false <-> empty_value v.
Proof.
  destruct v as [| b | z | f | s | l]; simpl.
  - tauto.
  - tauto.
  - rewrite negb_false_iff. apply Z.eqb_eq.
  - apply negb_false_iff.
  - rewrite negb_false_iff, String.eqb_eq.
    destruct s; simpl; split; congruence.
  - destruct l; simpl; split; congruence.
Qed.

Lemma empty_value_text (s : string) : empty_value (VStr s) <-> s = "".
Proof. destruct s; simpl; split; congruence. Qed.

(** The chained [and] is falsy exactly when one operand is. *)
Lemma py_and_falsy (a b : pyval) :
  truthy (py_and a b) = false <-> truthy a = false \/ truthy b = false.
Proof.
  unfold py_and. destruct (truthy a) eqn:Ha.
  - split; [auto | intros [H | H]; [discriminate | exact H]].
  - rewrite Ha. tauto.
Qed.

(** [validate_config] on any state: the attributes decide, the state
    is left as it was. *)
Lemma validate_config_spec (st : state) :
  exists b, validate_config st = (Return b, st) /\
    (b = false <->
     empty_value (host (self st)) \/ empty_value (username (self st)) \/
     empty_value (password (self st))).
Proof.
  eexists. split; [reflexivity |].
  rewrite !py_and_falsy, !truthy_false_iff_empty. tauto.
Qed.

(** What [__init__] stores. *)
Lemma init_attributes (env : Env) (config : gmap string pyval) (p : LCRProvider) :
  __init__ env config = inr p ->
  host p = dict_get_default config "host" (VStr "trunksip11.lcrcom.es") /\
  username p = dict_get config "api_key" /\
  password p = dict_get config "auth_token" /\
  sip_client p = None.
Proof.
  unfold __init__. destruct (py_int _ _) as [e | z]; [discriminate |].
  intros [= <-]. simpl. auto.
Qed.

(** C2: [validate_config] creates no session and performs no I/O (the
    provider, the heap of SIP clients and the trace are returned as
    they were), and for every configuration it returns false if and
    only if the host, the username ([api_key]) or the password
    ([auth_token]) the provider holds is empty. *)
Theorem validate_config_pure_iff_empty
    (env : Env) (config : gmap string pyval) (p : LCRProvider)
    (phs : list VoIPPhone) (tr : list event) :
  __init__ env config = inr p ->
  exists b,
    validate_config (mkState p phs tr) = (Return b, mkState p phs tr) /\
    (b = false <->
     empty_value (dict_get_default config "host" (VStr "trunksip11.lcrcom.es")) \/
     empty_value (dict_get config "api_key") \/
     empty_value (dict_get config "auth_token")).
Proof.
  intros Hinit.
  destruct (init_attributes env config p Hinit) as (Hh & Hu & Hp & _).
  destruct (validate_config_spec (mkState p phs tr)) as (b & Hrun & Hb).
  exists b. split; [exact Hrun |].
  simpl in Hb. rewrite Hh, Hu, Hp in Hb. exact Hb.
Qed.

Lemma validate_config_pure_iff_empty_witness :
  exists b,
    validate_config (mkState provider_hup [] []) = (Return b, mkState provider_hup [] []) /\
    (b = false <->
     empty_value (dict_get_default config_hup "host" (VStr "trunksip11.lcrcom.es")) \/
     empty_value (dict_get config_hup "api_key") \/
     empty_value (dict_get config_hup "auth_token")).
Proof.
  apply (validate_config_pure_iff_empty env_reachable config_hup provider_hup [] []).
  vm_compute. reflexivity.
Defined.

(** C5: [parse_inbound_webhook] fails with [NotSupported] on every
    payload and never produces a result. *)
Theorem parse_inbound_webhook_not_supported (webhook_data : gmap string pyval) :
  parse_inbound_webhook webhook_data = inl NotSupported /\
  forall r : NormalizedInboundData, parse_inbound_webhook webhook_data <> inr r.
Proof. split; [reflexivity | intros r H; discriminate H]. Qed.

(** C6: [get_call_status] never fails: on every call id and every
    state it returns a mapping with status "in-progress" and the given
    call id, and leaves the state as it was. *)
Theorem get_call_status_optimistic (cid : string) (st : state) :
  exists d : gmap string pyval,
    get_call_status cid st = (Return d, st) /\
    d !! "status" = Some (VStr "in-progress") /\
    d !! "call_id" = Some (VStr cid) /\
    dom d = ({[ "status"; "call_id" ]} : gset string).
Proof.
  eexists. split; [reflexivity |]. repeat split.
Qed.

(** C10: [get_call_cost] returns the constant mapping [cost_usd] to
    0.0 on every call id, and leaves the state as it was. *)
Theorem get_call_cost_zero (cid : string) (st : state) :
  get_call_cost cid st = (Return {[ "cost_usd" := VFloat 0%float ]}, st).
Proof. reflexivity. Qed.

(** C8: [can_handle_webhook] is false on every payload and headers, so
    no payload is claimed both by this backend and by another one. *)
Theorem can_handle_webhook_never_claims
    (webhook_data : gmap string pyval) (headers : gmap string string) :
  can_handle_webhook webhook_data headers = false /\
  forall other : gmap string pyval -> gmap string string -> bool,
    ~ (can_handle_webhook webhook_data headers = true /\
       other webhook_data headers = true).
Proof.
  split; [reflexivity |].
  intros other [H _]. discriminate H.
Qed.

(** ** Normalisation of [from_numbers] *)

(** C7: a [from_numbers] given as one string is stored as the list of
    that one string, and listing the available numbers returns that
    list; the configuration of the scenario, whatever the outside
    world, lists exactly ["+15551230000"]. *)
Theorem from_numbers_string_is_wrapped (env : Env) :
  (forall (config : gmap string pyval) (s : string) (p : LCRProvider)
          (phs : list VoIPPhone) (tr : list event),
      config !! "from_numbers" = Some (VStr s) ->
      __init__ env config = inr p ->
      from_numbers p = VList [VStr s] /\
      get_available_phone_numbers (mkState p phs tr)
        = (Return (VList [VStr s]), mkState p phs tr)) /\
  (exists p : LCRProvider,
      __init__ env config_scenario = inr p /\
      get_available_phone_numbers (fresh p)
        = (Return (VList [VStr "+15551230000"]), fresh p)).
Proof.
  split.
  - intros config s p phs tr Hfn Hinit.
    unfold __init__ in Hinit.
    destruct (py_int _ _) as [e | z]; [discriminate |].
    injection Hinit as <-.
    unfold get_available_phone_numbers, bind, get_self, ret. simpl.
    unfold dict_get_default. rewrite Hfn. simpl. auto.
  - eexists. split; reflexivity.
Qed.

Lemma from_numbers_string_is_wrapped_witness :
  from_numbers provider_scenario = VList [VStr "+15551230000"] /\
  get_available_phone_numbers (mkState provider_scenario [] [])
    = (Return (VList [VStr "+15551230000"]), mkState provider_scenario [] []).
Proof.
  apply (proj1 (from_numbers_string_is_wrapped env_reachable)
               config_scenario "+15551230000" provider_scenario [] []);
    vm_compute; reflexivity.
Defined.

(** ** Obtaining the session *)

(** With no session yet and incomplete credentials, [_get_sip_client]
    raises at once and changes nothing. *)
Lemma get_sip_client_rejects (env : Env) (st : state) :
  sip_client (self st) = None ->
  fst (validate_config st) = Return false ->
  _get_sip_client env st = (Raise ConfigInvalid, st).
Proof.
  intros Hnone Hval.
  unfold _get_sip_client, bind at 1 2, read_sip_client, bind at 1, get_self, ret.
  rewrite Hnone. simpl.
  unfold bind at 1.
  destruct (validate_config st) as [r st'] eqn:Hrun.
  destruct (validate_config_spec st) as (b & Hb & _).
  rewrite Hrun in Hb. injection Hb as -> ->.
  simpl in Hval. injection Hval as ->. reflexivity.
Qed.

(** With a session already held, [_get_sip_client] returns it and
    changes nothing. *)
Lemma get_sip_client_cached (env : Env) (st : state) (id : nat) :
  sip_client (self st) = Some id ->
  _get_sip_client env st = (Return (Some id), st).
Proof.
  intros Hsome.
  unfold _get_sip_client, bind, read_sip_client, bind, get_self, ret.
  rewrite Hsome. simpl. now rewrite Hsome.
Qed.

(** With no session yet, complete credentials and a constructor that
    succeeds, [_get_sip_client] allocates exactly one [VoIPPhone],
    stores it, and whether or not [start] then raises, the provider
    holds that phone afterwards. *)
Lemma get_sip_client_creates (env : Env) (st : state) :
  sip_client (self st) = None ->
  fst (validate_config st) = Return true ->
  (forall s h pt u pw, voip_new env s h pt u pw = None) ->
  exists r st',
    _get_sip_client env st = (r, st') /\
    sip_client (self st') = Some (List.length (phones st)) /\
    List.length (phones st') = S (List.length (phones st)) /\
    (forall x, r = Return x -> x = Some (List.length (phones st))).
Proof.
  intros Hnone Hval Hnew.
  unfold _get_sip_client, bind at 1 2, read_sip_client, bind at 1, get_self, ret.
  rewrite Hnone. simpl.
  unfold bind at 1.
  destruct (validate_config st) as [r0 st0] eqn:Hrun.
  destruct (validate_config_spec st) as (b & Hb & _).
  rewrite Hrun in Hb. injection Hb as -> ->.
  simpl in Hval. injection Hval as ->. simpl.
  unfold bind at 1. simpl.
  unfold bind at 1. simpl.
  unfold bind at 1. unfold VoIPPhone_new at 1. rewrite Hnew. simpl.
  unfold bind at 1. simpl.
  unfold bind at 1. simpl.
  unfold bind at 1. unfold VoIPPhone_start at 1. simpl.
  destruct (voip_start env _ _) as [e |]; simpl.
  - eexists _, _. split; [reflexivity |]. simpl.
    rewrite length_app. simpl. repeat split; [lia | intros x Hx; discriminate Hx].
  - eexists _, _. split; [reflexivity |]. simpl.
    rewrite length_alter, length_app. simpl.
    repeat split; [lia | intros x Hx; now injection Hx as <-].
Qed.

(** C3 as worded fails where the host key is missing: [__init__]
    falls back to the built-in trunk host, the credentials are
    complete, and a session is created. *)
Lemma missing_host_still_creates_session :
  missing_or_empty config_no_host "host" /\
  (exists p st',
      __init__ env_reachable config_no_host = inr p /\
      host p = VStr "trunksip11.lcrcom.es" /\
      _get_sip_client env_reachable (fresh p) = (Return (Some 0%nat), st') /\
      List.length (phones st') = 1%nat) /\
  ~ rejects_missing_or_empty.
Proof.
  split; [exact I |]. split.
  - eexists _, _. repeat split; reflexivity.
  - intros Hclaim.
    specialize (Hclaim env_reachable config_no_host
                  (mkLCRProvider (VStr "trunksip11.lcrcom.es") 5060 (VStr "p") (VStr "u")
                                 (VList []) None) [] []
                  eq_refl (or_introl I)).
    vm_compute in Hclaim. discriminate Hclaim.
Qed.

(** C3, amended: for every configuration whose host is present and
    empty, or whose username or password is missing or empty,
    obtaining the session of the provider built from it raises
    [ConfigInvalid] at once: no log line, no constructor call, no
    session, the state is returned as it was. *)
Theorem get_sip_client_fails_fast
    (env : Env) (config : gmap string pyval) (p : LCRProvider)
    (phs : list VoIPPhone) (tr : list event) :
  __init__ env config = inr p ->
  present_and_empty config "host" \/ missing_or_empty config "api_key" \/
  missing_or_empty config "auth_token" ->
  _get_sip_client env (mkState p phs tr) = (Raise ConfigInvalid, mkState p phs tr) /\
  sip_client (self (snd (_get_sip_client env (mkState p phs tr)))) = None.
Proof.
  intros Hinit Hbad.
  destruct (init_attributes env config p Hinit) as (Hh & Hu & Hp & Hnone).
  assert (Hrej : _get_sip_client env (mkState p phs tr) = (Raise ConfigInvalid, mkState p phs tr)).
  { apply get_sip_client_rejects; [exact Hnone |].
    destruct (validate_config_spec (mkState p phs tr)) as (b & Hrun & Hb).
    rewrite Hrun. simpl. f_equal. apply Hb. simpl.
    rewrite Hh, Hu, Hp. unfold dict_get, dict_get_default.
    unfold present_and_empty, missing_or_empty in Hbad.
    destruct Hbad as [H | [H | H]]; [left | right; left | right; right];
      destruct (config !! _); simpl; tauto. }
  split; [exact Hrej |]. rewrite Hrej. exact Hnone.
Qed.

Lemma get_sip_client_fails_fast_witness :
  _get_sip_client env_reachable
     (mkState (mkLCRProvider (VStr "h") 5060 VNone (VStr "u") (VList []) None) [] [])
  = (Raise ConfigInvalid,
     mkState (mkLCRProvider (VStr "h") 5060 VNone (VStr "u") (VList []) None) [] []) /\
  sip_client (self (snd (_get_sip_client env_reachable
     (mkState (mkLCRProvider (VStr "h") 5060 VNone (VStr "u") (VList []) None) [] []))))
  = None.
Proof.
  apply (get_sip_client_fails_fast env_reachable config_no_password
           (mkLCRProvider (VStr "h") 5060 VNone (VStr "u") (VList []) None) [] []).
  - vm_compute. reflexivity.
  - right. right. vm_compute. exact I.
Defined.

(** ** The media socket *)

Lemma new_events_app (st st' : state) (evs : list event) :
  trace st' = (trace st ++ evs)%list -> new_events st st' = evs.
Proof. intros H. unfold new_events. rewrite H. apply drop_app_length. Qed.

(** C9 as worded fails: after a successful handshake the handler
    writes a warning to the server's log and returns; nothing is sent
    to the peer and the socket is not closed. *)
Lemma accepted_socket_hears_nothing :
  ws_accept env_reachable (fresh provider_hup) 7%nat = None /\
  handle_websocket env_reachable 7%nat 1 2 3 (fresh provider_hup)
    = (Return tt,
       mkState provider_hup [] [WsAccept 7%nat; Log WARNING Msg_no_websocket_bridging]) /\
  ~ peer_is_told_of_non_support.
Proof.
  split; [reflexivity |]. split; [reflexivity |].
  intros Hclaim.
  destruct (Hclaim env_reachable 7%nat 1 2 3 (fresh provider_hup) eq_refl) as [_ Hsig].
  vm_compute in Hsig. discriminate Hsig.
Qed.

(** C9, amended: on every socket whose handshake succeeds, the handler
    accepts the connection, writes one warning to the server's log and
    returns; these are its only effects, so it sends nothing to the
    peer and does not close the socket. *)
Theorem handle_websocket_accepts_and_returns
    (env : Env) (ws : nat) (workflow_id user_id workflow_run_id : Z) (st : state) :
  ws_accept env st ws = None ->
  exists st',
    handle_websocket env ws workflow_id user_id workflow_run_id st = (Return tt, st') /\
    self st' = self st /\ phones st' = phones st /\
    new_events st st' = [WsAccept ws; Log WARNING Msg_no_websocket_bridging] /\
    existsb (peer_signal ws) (new_events st st') = false.
Proof.
  intros Hacc.
  unfold handle_websocket, bind, websocket_accept. rewrite Hacc. simpl.
  eexists. split; [reflexivity |]. simpl.
  assert (Hev : new_events st
            (mkState (self st) (phones st)
               ((trace st ++ [WsAccept ws]) ++ [Log WARNING Msg_no_websocket_bridging]))
          = [WsAccept ws; Log WARNING Msg_no_websocket_bridging]).
  { apply new_events_app. simpl. now rewrite <- app_assoc. }
  rewrite Hev. auto.
Qed.

Lemma handle_websocket_accepts_and_returns_witness :
  exists st',
    handle_websocket env_reachable 7%nat 1 2 3 (fresh provider_hup) = (Return tt, st') /\
    self st' = self (fresh provider_hup) /\ phones st' = phones (fresh provider_hup) /\
    new_events (fresh provider_hup) st'
      = [WsAccept 7%nat; Log WARNING Msg_no_websocket_bridging] /\
    existsb (peer_signal 7%nat) (new_events (fresh provider_hup) st') = false.
Proof.
  apply (handle_websocket_accepts_and_returns env_reachable 7%nat 1 2 3 (fresh provider_hup)).
  reflexivity.
Defined.

(** ** Creation of the session, alone and under a race *)

(** A worker that is alone computes [_get_sip_client]: eight steps
    from the entry reach [Done] with the function's result and state. *)
Lemma run_alone_is_get_sip_client (env : Env) (st : state) :
  run_alone env 8 AtCheck st
  = (Done (fst (_get_sip_client env st)), snd (_get_sip_client env st)).
Proof.
  unfold _get_sip_client, run_alone, step, advance, bind, read_sip_client, bind,
    validate_config, bind, get_self, ret, raise.
  destruct (sip_client (self st)) as [id |] eqn:Hcur; simpl.
  - rewrite Hcur. reflexivity.
  - destruct (truthy (py_and (py_and (host (self st)) (password (self st)))
                             (username (self st)))); simpl; [| reflexivity].
    unfold VoIPPhone_new. simpl.
    destruct (voip_new env _ _ _ _ _) as [e |]; simpl; [reflexivity |].
    destruct (voip_start env _ _) as [e |]; simpl; reflexivity.
Qed.

(** Scheduling one worker [n] times in a row is running it alone for
    [n] steps. *)
Lemma run_schedule_one_worker (env : Env) (n i : nat) (ts : list pc) (st : state) (c : pc) :
  ts !! i = Some c ->
  run_schedule env (replicate n i) (ts, st)
  = (<[i := fst (run_alone env n c st)]> ts, snd (run_alone env n c st)).
Proof.
  revert ts st c. induction n as [| n IH]; intros ts st c Hi.
  - simpl. now rewrite list_insert_id.
  - simpl. unfold run_schedule in *. simpl.
    unfold sched_step at 2. simpl. rewrite Hi.
    destruct (step env c st) as [c' st1] eqn:Hstep.
    rewrite (IH _ _ c').
    + now rewrite list_insert_insert_eq.
    + apply list_lookup_insert_eq. now apply lookup_lt_Some in Hi.
Qed.

(** Once the provider holds a session, further calls return it and
    create nothing. *)
Lemma sequential_calls_cached (env : Env) (n : nat) (st : state) (id : nat) :
  sip_client (self st) = Some id ->
  sequential_calls env n st = (replicate n (Return (Some id)), st).
Proof.
  intros Hsome. induction n as [| n IH]; [reflexivity |].
  simpl. rewrite (get_sip_client_cached env st id Hsome), IH. reflexivity.
Qed.

(** C4 as worded fails: [_get_sip_client] tests and assigns
    [self.sip_client] with no lock in between. Two workers that both
    test before either assigns each construct a [VoIPPhone]: both
    finish, and two sessions exist. *)
Lemma two_workers_create_two_sessions :
  __init__ env_reachable config_hup = inr provider_hup /\
  valid_identity provider_hup /\
  forallb is_done
    (fst (run_schedule env_reachable racing_schedule ([AtCheck; AtCheck], fresh provider_hup)))
  = true /\
  List.length
    (phones (snd (run_schedule env_reachable racing_schedule
                               ([AtCheck; AtCheck], fresh provider_hup))))
  = 2%nat /\
  ~ one_session_under_concurrent_first_use.
Proof.
  repeat split; try reflexivity.
  intros Hclaim.
  specialize (Hclaim env_reachable config_hup provider_hup 2%nat racing_schedule
                eq_refl eq_refl (fun _ _ _ _ _ => eq_refl) (le_S _ _ (le_n 1)) eq_refl).
  vm_compute in Hclaim. discriminate Hclaim.
Qed.

(** C4, amended: for every valid identity whose constructor succeeds,
    [N >= 1] calls of get-or-create made one after the other yield
    exactly one underlying session: one [VoIPPhone] exists afterwards,
    the provider holds it, and every call that returned returned it. *)
Theorem sequential_calls_create_one_session
    (env : Env) (config : gmap string pyval) (p : LCRProvider) (N : nat) :
  __init__ env config = inr p ->
  valid_identity p ->
  constructor_succeeds env ->
  (1 <= N)%nat ->
  List.length (phones (snd (sequential_calls env N (fresh p)))) = 1%nat /\
  sip_client (self (snd (sequential_calls env N (fresh p)))) = Some 0%nat /\
  Forall (fun r => forall x, r = Return x -> x = Some 0%nat)
         (fst (sequential_calls env N (fresh p))).
Proof.
  intros Hinit Hvalid Hnew HN.
  destruct (init_attributes env config p Hinit) as (_ & _ & _ & Hnone).
  destruct N as [| n]; [lia |].
  destruct (get_sip_client_creates env (fresh p) Hnone Hvalid Hnew)
    as (r & st1 & Hrun & Hcur & Hlen & Hret).
  simpl in Hcur, Hlen, Hret.
  simpl. rewrite Hrun, (sequential_calls_cached env n st1 0%nat Hcur). simpl.
  repeat split; [exact Hlen | exact Hcur |].
  constructor; [exact Hret |].
  apply Forall_forall. intros r' Hin x Hx.
  apply elem_of_replicate in Hin. destruct Hin as [-> _].
  now injection Hx as <-.
Qed.

Lemma sequential_calls_create_one_session_witness :
  List.length (phones (snd (sequential_calls env_reachable 3 (fresh provider_hup)))) = 1%nat /\
  sip_client (self (snd (sequential_calls env_reachable 3 (fresh provider_hup)))) = Some 0%nat /\
  Forall (fun r => forall x, r = Return x -> x = Some 0%nat)
         (fst (sequential_calls env_reachable 3 (fresh provider_hup))).
Proof.
  apply (sequential_calls_create_one_session env_reachable config_hup provider_hup 3).
  - vm_compute. reflexivity.
  - vm_compute. reflexivity.
  - intros s h pt u pw. reflexivity.
  - lia.
Defined.

(** * Further properties of the code *)

(** ** [_get_sip_client], case by case *)

Lemma validate_config_run (st : state) :
  validate_config st = (Return (credentials_complete (self st)), st).
Proof. reflexivity. Qed.

Lemma alter_last {A} (f : A -> A) (l : list A) (x : A) :
  alter f (List.length l) (l ++ [x])%list = (l ++ [f x])%list.
Proof. induction l as [| y l IH]; [reflexivity |]. cbn. f_equal. exact IH. Qed.

(** The five ways through [_get_sip_client]: a session is held; the
    credentials are incomplete; the constructor raises; [start]
    raises; everything succeeds. *)
Lemma get_sip_client_eq (env : Env) (st : state) :
  _get_sip_client env st =
  match sip_client (self st) with
  | Some id => (Return (Some id), st)
  | None =>
      if credentials_complete (self st) then
        match voip_new env (st_announced st) (host (self st)) (port (self st))
                       (username (self st)) (password (self st)) with
        | Some e => (Raise e, st_announced st)
        | None =>
            match voip_start env (st_assigned st) (List.length (phones st)) with
            | Some e => (Raise e, st_assigned st)
            | None => (Return (Some (List.length (phones st))), st_started st)
            end
        end
      else (Raise ConfigInvalid, st)
  end.
Proof.
  destruct (sip_client (self st)) as [id |] eqn:Hcur.
  { now apply get_sip_client_cached. }
  unfold _get_sip_client, bind at 1 2, read_sip_client, bind at 1, get_self, ret.
  rewrite Hcur. simpl. unfold bind at 1. rewrite validate_config_run.
  destruct (credentials_complete (self st)) eqn:Hok; simpl; [| reflexivity].
  unfold bind at 1. simpl. unfold bind at 1. simpl.
  unfold bind at 1. unfold VoIPPhone_new at 1. simpl.
  fold (log_init (self st)). fold (st_announced st).
  destruct (voip_new env (st_announced st) _ _ _ _) as [e |] eqn:Hnew; simpl;
    [reflexivity |].
  unfold bind at 1. simpl. unfold bind at 1. simpl.
  unfold bind at 1. unfold VoIPPhone_start at 1. simpl.
  rewrite <- app_assoc. simpl.
  fold (new_phone (self st)). fold (with_session (self st) (List.length (phones st))).
  fold (log_init (self st)). fold (st_assigned st).
  destruct (voip_start env (st_assigned st) _) as [e |] eqn:Hstart; simpl;
    [reflexivity |].
  unfold st_started. rewrite alter_last. rewrite <- !app_assoc. reflexivity.
Qed.

Lemma add_events_nil (st : state) : add_events st [] = st.
Proof. destruct st. unfold add_events. simpl. now rewrite app_nil_r. Qed.



(** [_do_sip_call] in terms of the session obtained, the answer of
    [phone.call] and the reading of the call id. *)
Lemma do_sip_call_eq (env : Env) (to_number : string) (st : state) :
  _do_sip_call env to_number st =
  match _get_sip_client env st with
  | (Raise e, st1) => (Raise e, st1)
  | (Pending, st1) => (Pending, st1)
  | (Return None, st1) =>
      (Raise (AttributeError "'NoneType' object has no attribute 'call'"),
       add_events st1
         [Log ERROR (Msg_sip_dial_error
                       (AttributeError "'NoneType' object has no attribute 'call'"))])
  | (Return (Some id), st1) =>
      match voip_call env st1 id to_number with
      | inl e => (Raise e, add_events st1 (logged_if_caught e (Msg_sip_dial_error e)))
      | inr call =>
          match str_callID call with
          | inr cid => (Return cid, add_events st1 [SipCall id to_number])
          | inl e =>
              (Raise e,
               add_events (add_events st1 [SipCall id to_number])
                          (logged_if_caught e (Msg_sip_dial_error e)))
          end
      end
  end.
Proof.
  unfold _do_sip_call, bind.
  destruct (_get_sip_client env st) as [[[id |] | e |] st1]; try reflexivity.
  unfold try_except_reraise, bind, VoIPPhone_call, read_callID, logged_if_caught.
  destruct (voip_call env st1 id to_number) as [e | call].
  - destruct (is_Exception e); [reflexivity |]. now rewrite add_events_nil.
  - simpl. destruct (str_callID call) as [e | cid]; [| reflexivity].
    destruct (is_Exception e); [reflexivity |]. now rewrite add_events_nil.
Qed.

(** [initiate_call] in terms of the worker's outcome. *)
Lemma initiate_call_eq (env : Env) (to_number webhook_url : string)
    (workflow_run_id : option Z) (st : state) :
  initiate_call env to_number webhook_url workflow_run_id st =
  match _do_sip_call env to_number (worker_start to_number st) with
  | (Return cid, st2) =>
      (Return (mkCallInitiationResult cid "ringing" "lcr" {[ "sip_host" := host (self st2) ]}),
       st2)
  | (Raise e, st2) => call_fails e st2
  | (Pending, st2) => (Pending, st2)
  end.
Proof.
  unfold initiate_call, bind at 1 2, worker_start. simpl.
  unfold try_except_reraise, bind, run_in_executor, call_fails, logged_if_caught.
  destruct (_do_sip_call env to_number _) as [[cid | e |] st2]; try reflexivity.
  destruct (deliver e) as [e' |]; [| reflexivity].
  destruct (is_Exception e'); [reflexivity |]. now rewrite add_events_nil.
Qed.

(** [_get_sip_client] never touches the configuration attributes, and
    what it returns is what the provider then holds. *)
Lemma get_sip_client_frame (env : Env) (st : state) :
  same_config (self st) (self (snd (_get_sip_client env st))) /\
  (forall obj, fst (_get_sip_client env st) = Return obj ->
               obj = sip_client (self (snd (_get_sip_client env st))) /\ is_Some obj).
Proof.
  rewrite get_sip_client_eq.
  destruct (sip_client (self st)) as [id |] eqn:Hcur; simpl.
  { split; [repeat split |]. intros obj [= <-]. rewrite Hcur. eauto. }
  destruct (credentials_complete (self st)); simpl.
  2:{ split; [repeat split |]. intros obj H. discriminate H. }
  destruct (voip_new env _ _ _ _ _); simpl.
  { split; [repeat split |]. intros obj H. discriminate H. }
  destruct (voip_start env _ _); simpl.
  { split; [repeat split |]. intros obj H. discriminate H. }
  split; [repeat split |]. intros obj [= <-]. eauto.
Qed.

(** [_get_sip_client] awaits nothing: it returns or raises. *)
Lemma get_sip_client_not_pending (env : Env) (st : state) :
  fst (_get_sip_client env st) <> Pending.
Proof.
  rewrite get_sip_client_eq.
  destruct (sip_client (self st)); [discriminate |].
  destruct (credentials_complete (self st)); [| discriminate].
  destruct (voip_new env _ _ _ _ _); [discriminate |].
  destruct (voip_start env _ _); discriminate.
Qed.



(** ** No result after a dial exception *)




(** ** The outbound call, outcome by outcome *)



(** X2: with no session held and incomplete credentials,
    [initiate_call] raises the credentials [ValueError]; it writes its
    opening line and its failure line to the log and nothing else: the
    dial-error line of [_do_sip_call] is not written, no phone is
    constructed and the SIP engine is not touched. *)
Theorem initiate_call_incomplete_credentials
    (env : Env) (to_number webhook_url : string) (workflow_run_id : option Z)
    (st : state) :
  sip_client (self st) = None ->
  credentials_complete (self st) = false ->
  initiate_call env to_number webhook_url workflow_run_id st
  = (Raise ConfigInvalid,
     add_events st [Log INFO (Msg_initiating_call to_number (username (self st)));
                    Log ERROR (Msg_failed_to_initiate ConfigInvalid)]).
Proof.
  intros Hnone Hbad.
  rewrite initiate_call_eq, do_sip_call_eq, get_sip_client_eq.
  unfold worker_start. simpl. rewrite Hnone, Hbad. simpl.
  unfold call_fails, add_events. simpl. now rewrite <- app_assoc.
Qed.

Lemma initiate_call_incomplete_credentials_witness :
  initiate_call env_reachable "+15557654321" "" None
    (fresh (mkLCRProvider (VStr "h") 5060 VNone (VStr "u") (VList []) None))
  = (Raise ConfigInvalid,
     add_events (fresh (mkLCRProvider (VStr "h") 5060 VNone (VStr "u") (VList []) None))
       [Log INFO (Msg_initiating_call "+15557654321" (VStr "u"));
        Log ERROR (Msg_failed_to_initiate ConfigInvalid)]).
Proof.
  apply (initiate_call_incomplete_credentials env_reachable "+15557654321" "" None
           (fresh (mkLCRProvider (VStr "h") 5060 VNone (VStr "u") (VList []) None)));
    reflexivity.
Defined.






(** ** Failures while the session is being created *)

(** X5: the session is assigned before it is started. When the
    constructor succeeds and [start] raises [e], [_get_sip_client]
    raises [e] but the provider already holds the new phone, which is
    not started; the next call returns that phone as it is and does
    not start it. *)
Theorem start_failure_keeps_unstarted_session (env : Env) (st : state) (e : exn) :
  sip_client (self st) = None ->
  credentials_complete (self st) = true ->
  voip_new env (st_announced st) (host (self st)) (port (self st))
           (username (self st)) (password (self st)) = None ->
  voip_start env (st_assigned st) (List.length (phones st)) = Some e ->
  _get_sip_client env st = (Raise e, st_assigned st) /\
  sip_client (self (st_assigned st)) = Some (List.length (phones st)) /\
  phones (st_assigned st) !! List.length (phones st) = Some (new_phone (self st)) /\
  ph_started (new_phone (self st)) = false /\
  _get_sip_client env (st_assigned st)
  = (Return (Some (List.length (phones st))), st_assigned st).
Proof.
  intros Hnone Hok Hnew Hstart.
  split; [rewrite get_sip_client_eq, Hnone, Hok, Hnew, Hstart; reflexivity |].
  split; [reflexivity |].
  split; [simpl; rewrite lookup_app_r, Nat.sub_diag by lia; reflexivity |].
  split; [reflexivity |].
  now apply get_sip_client_cached.
Qed.

Lemma start_failure_keeps_unstarted_session_witness :
  _get_sip_client env_start_fails (fresh provider_hup)
  = (Raise (LibraryError "OSError" "Address already in use"),
     st_assigned (fresh provider_hup)) /\
  sip_client (self (st_assigned (fresh provider_hup)))
    = Some (List.length (phones (fresh provider_hup))) /\
  phones (st_assigned (fresh provider_hup)) !! List.length (phones (fresh provider_hup))
    = Some (new_phone (self (fresh provider_hup))) /\
  ph_started (new_phone (self (fresh provider_hup))) = false /\
  _get_sip_client env_start_fails (st_assigned (fresh provider_hup))
  = (Return (Some (List.length (phones (fresh provider_hup)))),
     st_assigned (fresh provider_hup)).
Proof.
  apply (start_failure_keeps_unstarted_session env_start_fails (fresh provider_hup)
           (LibraryError "OSError" "Address already in use"));
    reflexivity.
Defined.

(** X6: when the constructor raises [e], [_get_sip_client] raises [e]
    having written only its opening log line: no session is held and
    no phone exists more than before, so the next call constructs
    again, and creates the session if the constructor and [start]
    then succeed. *)
Theorem constructor_failure_is_retried (env : Env) (st : state) (e : exn) :
  sip_client (self st) = None ->
  credentials_complete (self st) = true ->
  voip_new env (st_announced st) (host (self st)) (port (self st))
           (username (self st)) (password (self st)) = Some e ->
  _get_sip_client env st = (Raise e, st_announced st) /\
  sip_client (self (st_announced st)) = None /\
  phones (st_announced st) = phones st /\
  (voip_new env (st_announced (st_announced st)) (host (self st)) (port (self st))
            (username (self st)) (password (self st)) = None ->
   voip_start env (st_assigned (st_announced st)) (List.length (phones st)) = None ->
   _get_sip_client env (st_announced st)
   = (Return (Some (List.length (phones st))), st_started (st_announced st))).
Proof.
  intros Hnone Hok Hnew.
  split; [rewrite get_sip_client_eq, Hnone, Hok, Hnew; reflexivity |].
  split; [exact Hnone |]. split; [reflexivity |].
  intros Hnew' Hstart'.
  pose proof (get_sip_client_eq env (st_announced st)) as Heq.
  change (self (st_announced st)) with (self st) in Heq.
  change (phones (st_announced st)) with (phones st) in Heq.
  now rewrite Hnone, Hok, Hnew', Hstart' in Heq.
Qed.

Lemma constructor_failure_is_retried_witness :
  _get_sip_client env_busy_once (fresh provider_hup)
  = (Raise (LibraryError "OSError" "Address already in use"),
     st_announced (fresh provider_hup)) /\
  sip_client (self (st_announced (fresh provider_hup))) = None /\
  phones (st_announced (fresh provider_hup)) = phones (fresh provider_hup) /\
  _get_sip_client env_busy_once (st_announced (fresh provider_hup))
  = (Return (Some (List.length (phones (fresh provider_hup)))),
     st_started (st_announced (fresh provider_hup))).
Proof.
  destruct (constructor_failure_is_retried env_busy_once (fresh provider_hup)
              (LibraryError "OSError" "Address already in use")
              eq_refl eq_refl eq_refl) as (H1 & H2 & H3 & H4).
  split; [exact H1 | split; [exact H2 | split; [exact H3 | apply H4; reflexivity]]].
Defined.

(** ** The whole life of a provider *)

(** The chained [and] is truthy exactly when both operands are. *)
Lemma py_and_truthy (a b : pyval) :
  truthy (py_and a b) = true <-> truthy a = true /\ truthy b = true.
Proof.
  unfold py_and. destruct (truthy a) eqn:Ha.
  - tauto.
  - rewrite Ha. split; [discriminate | intros [H _]; discriminate H].
Qed.

Lemma same_config_refl (p : LCRProvider) : same_config p p.
Proof. repeat split. Qed.

Lemma same_config_trans (p q r : LCRProvider) :
  same_config p q -> same_config q r -> same_config p r.
Proof.
  intros (H1 & H2 & H3 & H4 & H5) (K1 & K2 & K3 & K4 & K5).
  repeat split; congruence.
Qed.

Lemma same_config_new_phone (p q : LCRProvider) :
  same_config p q ->
  new_phone q = new_phone p /\ credentials_complete q = credentials_complete p.
Proof.
  intros (H1 & H2 & H3 & H4 & H5). unfold new_phone, credentials_complete.
  now rewrite H1, H2, H3, H4.
Qed.

(** Writing events keeps the invariant, provided that a provider
    without a session writes no SIP event. *)
Lemma lifecycle_ok_add_events (p : LCRProvider) (st : state) (evs : list event) :
  lifecycle_ok p st ->
  (sip_client (self st) = None -> forallb (fun ev => negb (is_sip_event ev)) evs = true) ->
  lifecycle_ok p (add_events st evs).
Proof.
  intros [Hcfg Hlife] Hevs. split; [exact Hcfg |]. simpl.
  destruct Hlife as [(Hnone & Hphones & Htrace) | Hheld]; [left | right; exact Hheld].
  repeat split; [exact Hnone | exact Hphones |].
  rewrite forallb_app, Htrace, (Hevs Hnone). reflexivity.
Qed.

Lemma lifecycle_ok_get_sip_client (env : Env) (p : LCRProvider) (st : state) :
  lifecycle_ok p st -> lifecycle_ok p (snd (_get_sip_client env st)).
Proof.
  intros Hok. pose proof Hok as [Hcfg Hlife].
  destruct (same_config_new_phone p (self st) Hcfg) as [Hphone Hcomplete].
  rewrite get_sip_client_eq.
  destruct (sip_client (self st)) as [id |] eqn:Hcur; [exact Hok |].
  destruct Hlife as [(_ & Hphones & Htrace) | (Hheld & _)]; [| congruence].
  destruct (credentials_complete (self st)) eqn:Hc; [| exact Hok].
  destruct (voip_new env _ _ _ _ _).
  { apply (lifecycle_ok_add_events p st [log_init (self st)] Hok). reflexivity. }
  assert (Hassigned : lifecycle_ok p (st_assigned st)).
  { split; [exact Hcfg |]. right. simpl. rewrite Hphones, Hphone. simpl.
    repeat split; [congruence | now left]. }
  assert (Hstarted : lifecycle_ok p (st_started st)).
  { split; [exact Hcfg |]. right. simpl. rewrite Hphones, Hphone. simpl.
    repeat split; [congruence | now right]. }
  destruct (voip_start env _ _); assumption.
Qed.

Lemma lifecycle_ok_do_sip_call (env : Env) (p : LCRProvider) (to_number : string)
    (st : state) :
  lifecycle_ok p st -> lifecycle_ok p (snd (_do_sip_call env to_number st)).
Proof.
  intros Hok. apply (lifecycle_ok_get_sip_client env) in Hok.
  rewrite do_sip_call_eq.
  destruct (get_sip_client_frame env st) as [_ Hobj].
  destruct (_get_sip_client env st) as [[[id |] | e |] st1]; simpl in *.
  - destruct (Hobj (Some id) eq_refl) as [Hheld _].
    destruct (voip_call env st1 id to_number) as [e | call]; simpl.
    + apply lifecycle_ok_add_events; [exact Hok | intros Hnone; congruence].
    + destruct (str_callID call) as [e | cid]; simpl;
        repeat (apply lifecycle_ok_add_events; [| intros Hnone; simpl in Hnone; congruence]);
        exact Hok.
  - apply lifecycle_ok_add_events; [exact Hok | reflexivity].
  - exact Hok.
  - exact Hok.
Qed.

Lemma lifecycle_ok_initiate_call (env : Env) (p : LCRProvider)
    (to_number webhook_url : string) (workflow_run_id : option Z) (st : state) :
  lifecycle_ok p st ->
  lifecycle_ok p (snd (initiate_call env to_number webhook_url workflow_run_id st)).
Proof.
  intros Hok.
  assert (Hstart : lifecycle_ok p (worker_start to_number st)).
  { apply (lifecycle_ok_add_events p st
             [Log INFO (Msg_initiating_call to_number (username (self st)))] Hok).
    reflexivity. }
  apply (lifecycle_ok_do_sip_call env p to_number) in Hstart.
  rewrite initiate_call_eq.
  destruct (_do_sip_call env to_number (worker_start to_number st)) as [[cid | e |] st2];
    simpl in *; try exact Hstart.
  unfold call_fails. destruct (deliver e) as [e' |]; simpl; [| exact Hstart].
  apply lifecycle_ok_add_events; [exact Hstart |].
  intros _. unfold logged_if_caught. destruct (is_Exception e'); reflexivity.
Qed.

Lemma lifecycle_ok_run_call (env : Env) (p : LCRProvider) (st : state) (c : call) :
  lifecycle_ok p st -> lifecycle_ok p (run_call env st c).
Proof.
  intros Hok. destruct c; simpl; try exact Hok.
  - now apply lifecycle_ok_initiate_call.
  - now apply lifecycle_ok_get_sip_client.
  - unfold handle_websocket, bind, websocket_accept.
    destruct (ws_accept env st websocket); simpl; [exact Hok |].
    apply (lifecycle_ok_add_events p st
             [WsAccept websocket; Log WARNING Msg_no_websocket_bridging]) in Hok;
      [| reflexivity].
    unfold add_events in Hok. now rewrite <- app_assoc.
Qed.

Lemma lifecycle_ok_run_calls (env : Env) (p : LCRProvider) (cs : list call) (st : state) :
  lifecycle_ok p st -> lifecycle_ok p (run_calls env cs st).
Proof.
  revert st. induction cs as [| c cs IH]; intros st Hok; [exact Hok |].
  simpl. apply IH. now apply lifecycle_ok_run_call.
Qed.

Lemma lifecycle_ok_fresh (p : LCRProvider) : sip_client p = None -> lifecycle_ok p (fresh p).
Proof. intros Hnone. split; [apply same_config_refl |]. left. simpl. auto. Qed.

(** X7: over its whole life a provider keeps at most one session.
    After any sequence of calls on a provider built from a
    configuration, sequentially, its configuration attributes are
    those [__init__] stored and at most one [VoIPPhone] exists; the
    provider holds a session exactly when that phone exists, and
    then it holds that phone. *)
Theorem provider_keeps_at_most_one_session
    (env : Env) (config : gmap string pyval) (p : LCRProvider) (cs : list call) :
  __init__ env config = inr p ->
  same_config p (self (run_calls env cs (fresh p))) /\
  (List.length (phones (run_calls env cs (fresh p))) <= 1)%nat /\
  (sip_client (self (run_calls env cs (fresh p))) = None <->
   phones (run_calls env cs (fresh p)) = []) /\
  (forall id, sip_client (self (run_calls env cs (fresh p))) = Some id ->
              id = 0%nat /\ List.length (phones (run_calls env cs (fresh p))) = 1%nat).
Proof.
  intros Hinit.
  destruct (init_attributes env config p Hinit) as (_ & _ & _ & Hnone).
  destruct (lifecycle_ok_run_calls env p cs (fresh p) (lifecycle_ok_fresh p Hnone))
    as [Hcfg [(Hn & Hph & _) | (Hs & _ & [Hph | Hph])]];
    (split; [exact Hcfg |]); rewrite Hph; simpl.
  - repeat split; try lia; try congruence.
  - repeat split; try lia; try congruence; intros id Hid; congruence.
  - repeat split; try lia; try congruence; intros id Hid; congruence.
Qed.

Lemma provider_keeps_at_most_one_session_witness :
  same_config provider_hup (self (run_calls env_reachable calls_example (fresh provider_hup))) /\
  (List.length (phones (run_calls env_reachable calls_example (fresh provider_hup))) <= 1)%nat /\
  (sip_client (self (run_calls env_reachable calls_example (fresh provider_hup))) = None <->
   phones (run_calls env_reachable calls_example (fresh provider_hup)) = []) /\
  (forall id,
      sip_client (self (run_calls env_reachable calls_example (fresh provider_hup))) = Some id ->
      id = 0%nat /\
      List.length (phones (run_calls env_reachable calls_example (fresh provider_hup))) = 1%nat).
Proof.
  apply (provider_keeps_at_most_one_session env_reachable config_hup provider_hup calls_example).
  vm_compute. reflexivity.
Defined.

(** X8: a provider with incomplete credentials never reaches the SIP
    engine. Whatever sequence of calls is made on it, it holds no
    session, no [VoIPPhone] is ever constructed, and the trace holds no
    constructor, [start] or [call] event. *)
Theorem incomplete_credentials_never_reach_sip
    (env : Env) (config : gmap string pyval) (p : LCRProvider) (cs : list call) :
  __init__ env config = inr p ->
  credentials_complete p = false ->
  sip_client (self (run_calls env cs (fresh p))) = None /\
  phones (run_calls env cs (fresh p)) = [] /\
  forallb (fun ev => negb (is_sip_event ev)) (trace (run_calls env cs (fresh p))) = true.
Proof.
  intros Hinit Hbad.
  destruct (init_attributes env config p Hinit) as (_ & _ & _ & Hnone).
  destruct (lifecycle_ok_run_calls env p cs (fresh p) (lifecycle_ok_fresh p Hnone))
    as [_ [Hfree | (_ & Hok & _)]]; [exact Hfree | congruence].
Qed.

Lemma incomplete_credentials_never_reach_sip_witness :
  sip_client (self (run_calls env_reachable
     [Call_initiate_call "+15557654321" "" None; Call_get_sip_client]
     (fresh (mkLCRProvider (VStr "h") 5060 VNone (VStr "u") (VList []) None)))) = None /\
  phones (run_calls env_reachable
     [Call_initiate_call "+15557654321" "" None; Call_get_sip_client]
     (fresh (mkLCRProvider (VStr "h") 5060 VNone (VStr "u") (VList []) None))) = [] /\
  forallb (fun ev => negb (is_sip_event ev))
    (trace (run_calls env_reachable
     [Call_initiate_call "+15557654321" "" None; Call_get_sip_client]
     (fresh (mkLCRProvider (VStr "h") 5060 VNone (VStr "u") (VList []) None)))) = true.
Proof.
  apply (incomplete_credentials_never_reach_sip env_reachable config_no_password
           (mkLCRProvider (VStr "h") 5060 VNone (VStr "u") (VList []) None));
    vm_compute; reflexivity.
Defined.

(** X9: the session is built from the configuration's own values.
    Whenever, after any sequence of calls, the provider holds a
    session, that phone was constructed with the configured host (or
    the default trunk host) as server, the value of [api_key] as
    username and the value of [auth_token] as password, on the stored
    port and listening on 0.0.0.0, and all three are non-empty. *)
Theorem session_uses_configured_credentials
    (env : Env) (config : gmap string pyval) (p : LCRProvider) (cs : list call) (id : nat) :
  __init__ env config = inr p ->
  sip_client (self (run_calls env cs (fresh p))) = Some id ->
  exists ph,
    phones (run_calls env cs (fresh p)) !! id = Some ph /\
    ph_server ph = dict_get_default config "host" (VStr "trunksip11.lcrcom.es") /\
    ph_username ph = dict_get config "api_key" /\
    ph_password ph = dict_get config "auth_token" /\
    ph_port ph = port p /\ ph_myIP ph = "0.0.0.0" /\
    truthy (ph_server ph) = true /\ truthy (ph_username ph) = true /\
    truthy (ph_password ph) = true.
Proof.
  intros Hinit Hheld.
  destruct (init_attributes env config p Hinit) as (Hh & Hu & Hp & Hnone).
  destruct (lifecycle_ok_run_calls env p cs (fresh p) (lifecycle_ok_fresh p Hnone))
    as [_ [(Hn & _) | (Hs & Hok & Hph)]]; [congruence |].
  rewrite Hs in Hheld. injection Hheld as <-.
  unfold credentials_complete in Hok.
  apply py_and_truthy in Hok. destruct Hok as [Hok T2].
  apply py_and_truthy in Hok. destruct Hok as [T1 T3].
  destruct Hph as [Hph | Hph]; rewrite Hph; simpl; eexists; (split; [reflexivity |]);
    simpl; rewrite <- Hh, <- Hu, <- Hp; auto 10.
Qed.

Lemma session_uses_configured_credentials_witness :
  exists ph,
    phones (run_calls env_reachable [Call_initiate_call "+15557654321" "" None]
                      (fresh provider_hup)) !! 0%nat = Some ph /\
    ph_server ph = dict_get_default config_hup "host" (VStr "trunksip11.lcrcom.es") /\
    ph_username ph = dict_get config_hup "api_key" /\
    ph_password ph = dict_get config_hup "auth_token" /\
    ph_port ph = port provider_hup /\ ph_myIP ph = "0.0.0.0" /\
    truthy (ph_server ph) = true /\ truthy (ph_username ph) = true /\
    truthy (ph_password ph) = true.
Proof.
  apply (session_uses_configured_credentials env_reachable config_hup provider_hup
           [Call_initiate_call "+15557654321" "" None] 0%nat);
    vm_compute; reflexivity.
Defined.

(** ** What [__init__] stores *)

(** X10: after [__init__] the stored [from_numbers] is never a bare
    string: a string is wrapped in a one-element list, any other value
    is stored as it was given, and the empty list stands in for a
    missing key. *)
Theorem init_from_numbers_never_str
    (env : Env) (config : gmap string pyval) (p : LCRProvider) :
  __init__ env config = inr p ->
  isinstance_str (from_numbers p) = false /\
  (forall s, config !! "from_numbers" = Some (VStr s) -> from_numbers p = VList [VStr s]) /\
  (config !! "from_numbers" = None -> from_numbers p = VList []) /\
  (forall v, config !! "from_numbers" = Some v -> isinstance_str v = false ->
             from_numbers p = v).
Proof.
  unfold __init__. destruct (py_int _ _) as [e | z]; [discriminate |].
  intros [= <-]. simpl. unfold dict_get_default.
  destruct (config !! "from_numbers") as [v |]; simpl.
  - split; [destruct v; reflexivity |].
    split; [intros s [= ->]; reflexivity |].
    split; [discriminate |].
    intros v' [= <-] Hv. now rewrite Hv.
  - split; [reflexivity |]. split; [discriminate |].
    split; [reflexivity | discriminate].
Qed.

Lemma init_from_numbers_never_str_witness :
  isinstance_str (from_numbers provider_scenario) = false /\
  (forall s, config_scenario !! "from_numbers" = Some (VStr s) ->
             from_numbers provider_scenario = VList [VStr s]) /\
  (config_scenario !! "from_numbers" = None -> from_numbers provider_scenario = VList []) /\
  (forall v, config_scenario !! "from_numbers" = Some v -> isinstance_str v = false ->
             from_numbers provider_scenario = v).
Proof.
  apply (init_from_numbers_never_str env_reachable config_scenario provider_scenario).
  vm_compute. reflexivity.
Defined.

(** X11: [__init__] can raise only through [int(port)], and raises
    what [int] raises. With no port key, or with an integer port, it
    always builds a provider: the port is 5060 or the given integer,
    and no session is held. *)
Theorem init_raises_only_through_port (env : Env) (config : gmap string pyval) :
  (forall e, __init__ env config = inl e <->
             py_int env (dict_get_default config "port" (VInt 5060)) = inl e) /\
  (config !! "port" = None ->
   exists p, __init__ env config = inr p /\ port p = 5060 /\ sip_client p = None) /\
  (forall z, config !! "port" = Some (VInt z) ->
   exists p, __init__ env config = inr p /\ port p = z /\ sip_client p = None).
Proof.
  unfold __init__, dict_get_default. split; [| split].
  - intros e. destruct (py_int env _) as [e' | z]; split; congruence.
  - intros ->. simpl. eexists. repeat split.
  - intros z ->. simpl. eexists. repeat split.
Qed.

(** ** Workers racing through [_get_sip_client] *)

Lemma step_budget (env : Env) (c : pc) (st : state) :
  (List.length (phones (snd (step env c st))) + pending (fst (step env c st))
   <= List.length (phones st) + pending c)%nat.
Proof.
  destruct c; unfold step, advance, bind, read_sip_client, validate_config, bind,
    get_self, ret, raise, logger, emit, set_sip_client, VoIPPhone_new, VoIPPhone_start;
    simpl; try lia.
  - destruct (sip_client (self st)); simpl; lia.
  - destruct (truthy _); simpl; lia.
  - destruct (voip_new env _ _ _ _ _); simpl; [lia |]. rewrite length_app. simpl. lia.
  - destruct (sip_client (self st)) as [id |]; simpl; [| lia].
    destruct (voip_start env _ _); simpl; [lia |]. rewrite length_alter. lia.
Qed.

Lemma pool_pending_cons (t : pc) (ts : list pc) :
  pool_pending (t :: ts) = (pending t + pool_pending ts)%nat.
Proof. reflexivity. Qed.

Lemma pool_pending_insert (ts : list pc) (i : nat) (c c' : pc) :
  ts !! i = Some c ->
  (pool_pending (<[i := c']> ts) + pending c = pool_pending ts + pending c')%nat.
Proof.
  revert i. induction ts as [| t ts IH]; intros i Hi; [discriminate |].
  destruct i as [| i].
  - injection Hi as ->.
    change (<[0%nat := c']> (c :: ts)) with (c' :: ts).
    rewrite !pool_pending_cons. lia.
  - specialize (IH i Hi).
    change (<[S i := c']> (t :: ts)) with (t :: <[i := c']> ts).
    rewrite !pool_pending_cons. lia.
Qed.

Lemma sched_step_budget (env : Env) (cfg : list pc * state) (i : nat) :
  (List.length (phones (snd (sched_step env cfg i))) + pool_pending (fst (sched_step env cfg i))
   <= List.length (phones (snd cfg)) + pool_pending (fst cfg))%nat.
Proof.
  unfold sched_step. destruct (fst cfg !! i) as [c |] eqn:Hi; [| lia].
  pose proof (step_budget env c (snd cfg)) as Hstep.
  destruct (step env c (snd cfg)) as [c' st']. simpl in *.
  pose proof (pool_pending_insert (fst cfg) i c c' Hi). lia.
Qed.

Lemma run_schedule_budget (env : Env) (sched : list nat) (cfg : list pc * state) :
  (List.length (phones (snd (run_schedule env sched cfg)))
   + pool_pending (fst (run_schedule env sched cfg))
   <= List.length (phones (snd cfg)) + pool_pending (fst cfg))%nat.
Proof.
  revert cfg. induction sched as [| i sched IH]; intros cfg; [simpl; lia |].
  unfold run_schedule in *. simpl.
  pose proof (IH (sched_step env cfg i)). pose proof (sched_step_budget env cfg i). lia.
Qed.

Lemma pool_pending_replicate (N : nat) : pool_pending (replicate N AtCheck) = N.
Proof.
  induction N as [| N IH]; [reflexivity |].
  change (replicate (S N) AtCheck) with (AtCheck :: replicate N AtCheck).
  rewrite pool_pending_cons, IH. reflexivity.
Qed.

(** A step never gives a worker back the right to construct, and the
    step from the constructor takes it away. *)
Lemma step_pending (env : Env) (c : pc) (st : state) :
  (pending (fst (step env c st)) <= pending c)%nat /\
  (c = AtConstruct -> pending (fst (step env c st)) = 0%nat).
Proof.
  destruct c; unfold step, advance, bind, read_sip_client, validate_config, bind,
    get_self, ret, raise, logger, emit, set_sip_client, VoIPPhone_new, VoIPPhone_start;
    simpl; (split; [| try discriminate]); try lia.
  - destruct (sip_client (self st)); simpl; lia.
  - destruct (truthy _); simpl; lia.
  - destruct (voip_new env _ _ _ _ _); simpl; lia.
  - intros _. destruct (voip_new env _ _ _ _ _); reflexivity.
  - destruct (sip_client (self st)) as [id |]; simpl; [| lia].
    destruct (voip_start env _ _); simpl; lia.
Qed.

Lemma constructor_calls_bound (env : Env) (sched : list nat) (ts : list pc) (st : state)
    (i : nat) :
  (constructor_calls env sched (ts, st) i <= pending_at ts i)%nat.
Proof.
  revert ts st. induction sched as [| j sched IH]; intros ts st; [simpl; lia |].
  cbn [constructor_calls]. unfold sched_step. cbn [fst snd].
  destruct (ts !! j) as [c |] eqn:Hj.
  2:{ specialize (IH ts st). destruct (Nat.eqb j i); lia. }
  destruct (step_pending env c st) as [Hmono Hzero].
  destruct (step env c st) as [c' st'] eqn:Hstep. cbn [fst] in Hmono, Hzero.
  specialize (IH (<[j := c']> ts) st').
  destruct (Nat.eqb_spec j i) as [-> | Hne].
  - unfold pending_at in *. rewrite Hj.
    rewrite list_lookup_insert_eq in IH by (now apply lookup_lt_Some in Hj).
    destruct c; simpl in *; try lia. specialize (Hzero eq_refl). lia.
  - unfold pending_at in *. rewrite list_lookup_insert_ne in IH by exact Hne. lia.
Qed.

Lemma pending_at_replicate (N i : nat) : (pending_at (replicate N AtCheck) i <= 1)%nat.
Proof.
  unfold pending_at. destruct (replicate N AtCheck !! i) as [c |] eqn:Hi; [| lia].
  apply lookup_replicate in Hi. destruct Hi as [-> _]. simpl. lia.
Qed.

(** X12: without a lock the race is still bounded. However [N]
    workers entering [_get_sip_client] are interleaved, and whatever
    the outside world answers, each worker calls the [VoIPPhone]
    constructor at most once, whether that call returns or raises, and
    so at most [N] phones are created. *)
Theorem racing_workers_create_at_most_one_each
    (env : Env) (N : nat) (sched : list nat) (st : state) :
  (forall i, (constructor_calls env sched (replicate N AtCheck, st) i <= 1)%nat) /\
  (List.length (phones (snd (run_schedule env sched (replicate N AtCheck, st))))
   <= List.length (phones st) + N)%nat.
Proof.
  split.
  - intros i.
    pose proof (constructor_calls_bound env sched (replicate N AtCheck) st i).
    pose proof (pending_at_replicate N i). lia.
  - pose proof (run_schedule_budget env sched (replicate N AtCheck, st)) as H.
    simpl in H. rewrite pool_pending_replicate in H. lia.
Qed.

Lemma step_on_rejection_path (env : Env) (c : pc) (st : state) :
  sip_client (self st) = None ->
  credentials_complete (self st) = false ->
  on_rejection_path c ->
  snd (step env c st) = st /\ on_rejection_path (fst (step env c st)).
Proof.
  intros Hnone Hbad [-> | [-> | ->]].
  - unfold step, advance, read_sip_client, bind, get_self, ret. simpl.
    rewrite Hnone. simpl. split; [reflexivity | right; now left].
  - unfold step, advance, bind. rewrite !validate_config_run, Hbad. simpl.
    split; [reflexivity | right; now right].
  - simpl. split; [reflexivity | right; now right].
Qed.

Lemma run_schedule_on_rejection_path (env : Env) (sched : list nat)
    (ts : list pc) (st : state) :
  sip_client (self st) = None ->
  credentials_complete (self st) = false ->
  Forall on_rejection_path ts ->
  snd (run_schedule env sched (ts, st)) = st /\
  Forall on_rejection_path (fst (run_schedule env sched (ts, st))).
Proof.
  intros Hnone Hbad. revert ts.
  induction sched as [| i sched IH]; intros ts Hts; [now split |].
  unfold run_schedule in *. simpl. unfold sched_step at 2 4. simpl.
  destruct (ts !! i) as [c |] eqn:Hi; [| now apply IH].
  assert (Hc : on_rejection_path c).
  { rewrite Forall_lookup in Hts. exact (Hts i c Hi). }
  destruct (step_on_rejection_path env c st Hnone Hbad Hc) as [Hst Hc'].
  destruct (step env c st) as [c' st']. simpl in Hst, Hc'. subst st'.
  apply IH. now apply Forall_insert.
Qed.

(** X13: failing fast holds under any interleaving. With no session
    held and incomplete credentials, however the workers of the pool
    are scheduled through [_get_sip_client], the state is left exactly
    as it was (no phone, no log line, no session) and every worker
    that has finished has raised the credentials [ValueError]. *)
Theorem incomplete_credentials_rejected_under_any_schedule
    (env : Env) (N : nat) (sched : list nat) (st : state) :
  sip_client (self st) = None ->
  credentials_complete (self st) = false ->
  snd (run_schedule env sched (replicate N AtCheck, st)) = st /\
  Forall (fun c => is_done c = true -> c = Done (Raise ConfigInvalid))
         (fst (run_schedule env sched (replicate N AtCheck, st))).
Proof.
  intros Hnone Hbad.
  destruct (run_schedule_on_rejection_path env sched (replicate N AtCheck) st Hnone Hbad)
    as [Hst Hpool].
  { apply Forall_replicate. now left. }
  split; [exact Hst |].
  eapply Forall_impl; [exact Hpool |].
  intros c [-> | [-> | ->]] Hdone; [discriminate | discriminate | reflexivity].
Qed.

Lemma incomplete_credentials_rejected_under_any_schedule_witness :
  snd (run_schedule env_reachable racing_schedule
         (replicate 2 AtCheck,
          fresh (mkLCRProvider (VStr "h") 5060 VNone (VStr "u") (VList []) None)))
  = fresh (mkLCRProvider (VStr "h") 5060 VNone (VStr "u") (VList []) None) /\
  Forall (fun c => is_done c = true -> c = Done (Raise ConfigInvalid))
         (fst (run_schedule env_reachable racing_schedule
                 (replicate 2 AtCheck,
                  fresh (mkLCRProvider (VStr "h") 5060 VNone (VStr "u") (VList []) None)))).
Proof.
  apply (incomplete_credentials_rejected_under_any_schedule env_reachable 2 racing_schedule
           (fresh (mkLCRProvider (VStr "h") 5060 VNone (VStr "u") (VList []) None)));
    reflexivity.
Defined.

(** X14: a worker that is not interrupted computes [_get_sip_client].
    Scheduling one worker of the pool for eight steps in a row from the
    entry leaves it finished with the outcome of [_get_sip_client] and
    the shared state that call produces, the other workers where they
    were. *)
Theorem uninterrupted_worker_computes_get_sip_client
    (env : Env) (ts : list pc) (i : nat) (st : state) :
  ts !! i = Some AtCheck ->
  run_schedule env (replicate 8 i) (ts, st)
  = (<[i := Done (fst (_get_sip_client env st))]> ts, snd (_get_sip_client env st)).
Proof.
  intros Hi.
  rewrite (run_schedule_one_worker env 8 i ts st AtCheck Hi).
  now rewrite run_alone_is_get_sip_client.
Qed.

Lemma uninterrupted_worker_computes_get_sip_client_witness :
  run_schedule env_reachable (replicate 8 1%nat) ([AtCheck; AtCheck], fresh provider_hup)
  = (<[1%nat := Done (fst (_get_sip_client env_reachable (fresh provider_hup)))]>
       [AtCheck; AtCheck],
     snd (_get_sip_client env_reachable (fresh provider_hup))).
Proof.
  apply (uninterrupted_worker_computes_get_sip_client env_reachable [AtCheck; AtCheck] 1%nat
           (fresh provider_hup)).
  reflexivity.
Defined.

(** ** The first call on a fresh provider *)

(** X15: on a provider that holds no session and has complete
    credentials, when the constructor, [start] and [phone.call] all
    succeed and the id of the call object is read, [initiate_call]
    returns the "ringing" record of that id and does, in this order
    and nothing else: its opening log line, the initialisation log
    line, the construction of the phone, its start, the success log
    line, the dial. The phone is started before it is dialled on, and
    the provider holds it afterwards. *)
Theorem first_call_creates_starts_then_dials
    (env : Env) (to_number webhook_url : string) (workflow_run_id : option Z)
    (st : state) (call : VoIPCall) (cid : string) :
  sip_client (self st) = None ->
  credentials_complete (self st) = true ->
  voip_new env (st_announced (worker_start to_number st)) (host (self st)) (port (self st))
           (username (self st)) (password (self st)) = None ->
  voip_start env (st_assigned (worker_start to_number st)) (List.length (phones st)) = None ->
  voip_call env (st_started (worker_start to_number st)) (List.length (phones st)) to_number
    = inr call ->
  str_callID call = inr cid ->
  initiate_call env to_number webhook_url workflow_run_id st
  = (Return (mkCallInitiationResult cid "ringing" "lcr" {[ "sip_host" := host (self st) ]}),
     mkState (with_session (self st) (List.length (phones st)))
             (phones st ++ [mark_started (new_phone (self st))])
             (trace st ++
              [Log INFO (Msg_initiating_call to_number (username (self st)));
               Log INFO (Msg_initializing_sip_client (username (self st)) (host (self st)));
               SipNew (List.length (phones st));
               SipStart (List.length (phones st));
               Log SUCCESS Msg_sip_client_started;
               SipCall (List.length (phones st)) to_number])).
Proof.
  intros Hnone Hok Hnew Hstart Hcall Hid.
  rewrite initiate_call_eq, do_sip_call_eq, get_sip_client_eq.
  change (self (worker_start to_number st)) with (self st).
  change (phones (worker_start to_number st)) with (phones st).
  rewrite Hnone, Hok, Hnew, Hstart, Hcall, Hid.
  unfold add_events, st_started, worker_start, log_init. simpl.
  rewrite <- !app_assoc. reflexivity.
Qed.

Lemma first_call_creates_starts_then_dials_witness :
  initiate_call env_reachable "+15557654321" "" None (fresh provider_hup)
  = (Return (mkCallInitiationResult "call-1" "ringing" "lcr"
               {[ "sip_host" := host (self (fresh provider_hup)) ]}),
     mkState (with_session (self (fresh provider_hup))
                           (List.length (phones (fresh provider_hup))))
             (phones (fresh provider_hup)
              ++ [mark_started (new_phone (self (fresh provider_hup)))])
             (trace (fresh provider_hup) ++
              [Log INFO (Msg_initiating_call "+15557654321"
                           (username (self (fresh provider_hup))));
               Log INFO (Msg_initializing_sip_client (username (self (fresh provider_hup)))
                                                     (host (self (fresh provider_hup))));
               SipNew (List.length (phones (fresh provider_hup)));
               SipStart (List.length (phones (fresh provider_hup)));
               Log SUCCESS Msg_sip_client_started;
               SipCall (List.length (phones (fresh provider_hup))) "+15557654321"])).
Proof.
  apply (first_call_creates_starts_then_dials env_reachable "+15557654321" "" None
           (fresh provider_hup) (mkVoIPCall (inr "call-1")) "call-1");
    reflexivity.
Defined.
